(** * EntreLinhas: the metro dashboard of [app.js]

    A shallow embedding of the dashboard's logic: the module-level state
    ([metroData], [allStations], [currentStation], [occupancyPercentage])
    together with the four DOM elements the script writes to is one record,
    and every callback of the script ([onValue], the search box's input
    handler, [selectStation], [displayStation], [goBack], ...) is a function
    from state to state.

    Conventions of the embedding.

    - A JavaScript string is a [string]: a sequence of code units, here the
      code units below 256 (Latin-1), on which [toLowerCase] and [trim] are
      the ones of the language.
    - The numbers published by the feed (seconds, a percentage, an epoch) are
      whole numbers and are kept in [Z]; a binary64 value holds them exactly.
      What the script computes from them by division and multiplication
      (ratios, darkness, positions, colour channels) is computed in binary64
      with the kernel's primitive floats, as the script does.
    - A JavaScript object used as a map is an association list in the order
      in which [Object.keys] and [Object.entries] enumerate it; only own
      properties are looked up.
    - [innerHTML] is kept as a tree with one constructor per piece of markup
      the script emits, the texts in it being the script's. *)

From Stdlib Require Import ZArith List String Ascii Bool Lia Floats.
From Stdlib Require Import Numbers.DecimalString Sorting.Sorted Sorting.Permutation.
Import ListNotations.

Local Open Scope string_scope.
Local Open Scope Z_scope.

#[local] Set Warnings "-register-all".

(* ================================================================== *)
(** * Strings *)

Module Str.

(** [s.replace(/c/g, d)] for one-character patterns. *)
Fixpoint replaceAll (c d : ascii) (s : string) : string :=
  match s with
  | EmptyString => EmptyString
  | String a r => String (if Ascii.eqb a c then d else a) (replaceAll c d r)
  end.

(** Code units that [toLowerCase] moves: A-Z, and the Latin-1 capitals
    U+00C0..U+00DE without the multiplication sign U+00D7. *)
Definition isUpper (a : ascii) : bool :=
  let n := nat_of_ascii a in
  ((65 <=? n) && (n <=? 90) ||
   (192 <=? n) && (n <=? 222) && negb (n =? 215))%nat.

Definition lowerChar (a : ascii) : ascii :=
  if isUpper a then ascii_of_nat (nat_of_ascii a + 32) else a.

Fixpoint toLowerCase (s : string) : string :=
  match s with
  | EmptyString => EmptyString
  | String a r => String (lowerChar a) (toLowerCase r)
  end.

(** White space and line terminators below 256: TAB, LF, VT, FF, CR, SP
    and NBSP. *)
Definition isWhite (a : ascii) : bool :=
  let n := nat_of_ascii a in
  ((9 <=? n) && (n <=? 13) || (n =? 32) || (n =? 160))%nat.

Fixpoint trimStart (s : string) : string :=
  match s with
  | EmptyString => EmptyString
  | String a r => if isWhite a then trimStart r else s
  end.

Fixpoint trimEnd (s : string) : string :=
  match s with
  | EmptyString => EmptyString
  | String a r =>
      match trimEnd r with
      | EmptyString => if isWhite a then EmptyString else String a EmptyString
      | r' => String a r'
      end
  end.

Definition trim (s : string) : string := trimEnd (trimStart s).

(** [s.includes(q)]: [q] occurs in [s] at some position. *)
Fixpoint includes (s q : string) : bool :=
  String.prefix q s ||
  match s with
  | EmptyString => false
  | String _ r => includes r q
  end.

(** The filler of [padStart]: [pad] repeated and cut to [n] code units. *)
Fixpoint filler (pad rest : string) (n : nat) : string :=
  match n with
  | O => EmptyString
  | S n' =>
      match rest with
      | String a r => String a (filler pad r n')
      | EmptyString =>
          match pad with
          | String a r => String a (filler pad r n')
          | EmptyString => EmptyString
          end
      end
  end.

Definition padStart (targetLength : nat) (pad s : string) : string :=
  if (targetLength <=? String.length s)%nat then s
  else filler pad pad (targetLength - String.length s) ++ s.

(** [String(n)] for a whole number. *)
Definition ofZ (n : Z) : string := NilZero.string_of_int (Z.to_int n).

(** The default comparison of [Array.prototype.sort]: code units, left to
    right. *)
Definition leb (a b : string) : bool := String.leb a b.

Definition le (a b : string) : Prop := leb a b = true.

Fixpoint insert (x : string) (l : list string) : list string :=
  match l with
  | [] => [x]
  | y :: r => if leb x y then x :: l else y :: insert x r
  end.

Definition sort (l : list string) : list string := fold_right insert [] l.

End Str.

(* ================================================================== *)
(** * Numbers *)

Module Num.

(** A whole number as the binary64 value nearest to it. *)
Definition ofZ (z : Z) : float := SF2Prim (binary_normalize prec emax z 0 false).

(** What [Math.round] returns: an integer, or one of the special values. *)
Inductive rounded : Type :=
| RInt (z : Z)
| RNaN
| RInf (negative : bool).

(** [Math.round x]: the integer nearest to [x], ties towards +infinity,
    that is floor (x + 1/2) over the exact value m * 2^e of [x]. *)
Definition round (x : float) : rounded :=
  match Prim2SF x with
  | S754_zero _ => RInt 0
  | S754_infinity s => RInf s
  | S754_nan => RNaN
  | S754_finite s m e =>
      let v := if s then Z.neg m else Z.pos m in
      if 0 <=? e then RInt (v * 2 ^ e)
      else RInt ((2 * v + 2 ^ (- e)) / 2 ^ (- e + 1))
  end.

(** A rounded value inside a template literal. *)
Definition toString (r : rounded) : string :=
  match r with
  | RInt z => Str.ofZ z
  | RNaN => "NaN"
  | RInf false => "Infinity"
  | RInf true => "-Infinity"
  end.

End Num.

(* ================================================================== *)
(** * Occupancy colour (lines 26-45) *)

Definition getOccupancyColor (percentage : Z) : string :=
  let p := (Num.ofZ (Z.min (Z.max percentage 0) 100) / 100)%float in
  let '(r, g, b) :=
    if (p <? 0.5)%float then
      (Num.round (0 + 255 * (p / 0.5))%float, Num.RInt 180, Num.RInt 0)
    else
      (Num.RInt 255, Num.round (180 * (1 - (p - 0.5) / 0.5))%float, Num.RInt 0) in
  "rgb(" ++ Num.toString r ++ "," ++ Num.toString g ++ "," ++ Num.toString b ++ ")".

(* ================================================================== *)
(** * The feed's data *)

(** A JavaScript object used as a map, in enumeration order. The keys of
    an object are pairwise distinct; [get] reads the first. *)
Definition obj (V : Type) : Type := list (string * V).

Module Obj.

(** [o[k]]: the own property [k], [None] for [undefined]. *)
Fixpoint get {V : Type} (o : obj V) (k : string) : option V :=
  match o with
  | [] => None
  | (k', v) :: r => if String.eqb k' k then Some v else get r k
  end.

(** [Object.keys(o)]. *)
Definition keys {V : Type} (o : obj V) : list string := map fst o.

End Obj.

(** A value below a station entry, where the script inspects types at run
    time. The realtime database stores no [null] inside a value. *)
Inductive JsVal : Type :=
| JBool (b : bool)
| JNum (n : Z)
| JStr (s : string)
| JArr (items : list JsVal)
| JObj (fields : list (string * JsVal)).

(** Line identifier to destinations, or the marker [{"NA": "NA"}]. *)
Definition StationEntry : Type := obj JsVal.

(** [snapshot.val()], when it is not [null]. *)
Record Snapshot : Type := mkSnapshot {
  timestamp : option Z;
  current_wait_times : option (obj StationEntry);
  Occupancy : option Z
}.

(* ================================================================== *)
(** * Markup *)

(** One cell of [<div class="wait-times">]. *)
Inductive WaitCell : Type :=
| WaitNA
    (* <div class="wait-time wait-time-na">--</div> *)
| WaitTime (formatted : string) (darkness : float) (lineColor : string).
    (* <div class="wait-time" style="background: linear-gradient(
         rgba(0,0,0,darkness), rgba(0,0,0,darkness)), lineColor; ...">
         formatted</div> *)

(** One [<div class="train-icon">]. *)
Record TrainIcon : Type := mkTrainIcon {
  icon_left : float;             (* style="left: ...%" *)
  icon_color : string;           (* background-color *)
  icon_title : string;           (* title="Wait: m:ss | Occupancy: n%" *)
  icon_occupancy : string        (* <span class="train-occupancy">n%</span> *)
}.

(** [<div class="train-line">]: the track and its icons. *)
Record TrainLine : Type := mkTrainLine {
  track_color : string;
  track_icons : list TrainIcon
}.

(** What one destination with a non-empty sequence contributes. *)
Record DestinationBlock : Type := mkDestinationBlock {
  dest_name : string;            (* <div class="destination"> *)
  dest_cells : list WaitCell;    (* <div class="wait-times"> *)
  dest_train : option TrainLine
}.

(** [<div class="line-card">]. *)
Record LineCard : Type := mkLineCard {
  line_name : string;
  line_color : string;
  line_destinations : list DestinationBlock;
  line_noData : bool             (* <div class="no-data">No data available</div> *)
}.

(** One [<div class="station-list-item">]. *)
Record StationListItem : Type := mkStationListItem {
  item_station : string;         (* onclick="selectStation('...')" *)
  item_closed : bool;            (* class "closed" *)
  item_name : string;            (* <div class="station-list-name"> *)
  item_badges : option (list (string * string))
    (* line badges (name, colour); [None] is the "Closed" badge *)
}.

(** The content of [#results]. *)
Inductive Results : Type :=
| Page
    (* what the page ships with, before the script writes to it *)
| EmptyState (text : string)
    (* <div class="empty-state"><p>text</p></div> *)
| StationMessage (name message : string)
    (* <div class="station-card"><div class="station-name">name</div>
       <div class="closed-message">message</div></div> *)
| StationCard (name : string) (lines : list LineCard)
    (totalLines totalDestinations : nat)
    (* the card with its back button, the line cards, and
       <div class="debug-info">Lines: .. Destinations: ..</div> *)
| StationList (items : list StationListItem).

(** The text of [<div class="station-name">], when there is one. *)
Definition heading (r : Results) : option string :=
  match r with
  | StationMessage name _ => Some name
  | StationCard name _ _ _ => Some name
  | _ => None
  end.

(** The content of [#suggestions]. *)
Inductive SuggestionsHtml : Type :=
| Suggest (items : list (string * string))   (* data-station, text *)
| NoStationsFound.

(* ================================================================== *)
(** * State *)

Record App : Type := mkApp {
  metroData : option Snapshot;
  allStations : list string;
  currentStation : option string;
  occupancyPercentage : Z;
  (* the document *)
  results : Results;
  lastUpdate : option Z;         (* "Last update: " and that instant's time *)
  searchInput : string;
  suggestions : SuggestionsHtml;
  suggestionsActive : bool
}.

(** The state when the script has been loaded (lines 12-15). *)
Definition start : App :=
  {| metroData := None; allStations := []; currentStation := None;
     occupancyPercentage := 50;
     results := Page; lastUpdate := None; searchInput := "";
     suggestions := Suggest []; suggestionsActive := false |}.

Definition setResults (r : Results) (a : App) : App :=
  mkApp (metroData a) (allStations a) (currentStation a) (occupancyPercentage a)
        r (lastUpdate a) (searchInput a) (suggestions a) (suggestionsActive a).

Definition setCurrentStation (c : option string) (a : App) : App :=
  mkApp (metroData a) (allStations a) c (occupancyPercentage a)
        (results a) (lastUpdate a) (searchInput a) (suggestions a)
        (suggestionsActive a).

Definition setSearchInput (v : string) (a : App) : App :=
  mkApp (metroData a) (allStations a) (currentStation a) (occupancyPercentage a)
        (results a) (lastUpdate a) v (suggestions a) (suggestionsActive a).

Definition setSuggestions (s : SuggestionsHtml) (a : App) : App :=
  mkApp (metroData a) (allStations a) (currentStation a) (occupancyPercentage a)
        (results a) (lastUpdate a) (searchInput a) s (suggestionsActive a).

Definition setSuggestionsActive (b : bool) (a : App) : App :=
  mkApp (metroData a) (allStations a) (currentStation a) (occupancyPercentage a)
        (results a) (lastUpdate a) (searchInput a) (suggestions a) b.

(** A value in a condition. *)
Definition truthyString (s : option string) : bool :=
  match s with
  | Some (String _ _) => true
  | _ => false
  end.

(* ================================================================== *)
(** * Rendering *)

(** [lineColors[line] || '#666'] (lines 18-23). *)
Definition lineColor (line : string) : string :=
  if String.eqb line "Azul" then "#0066cc"
  else if String.eqb line "Verde" then "#00a550"
  else if String.eqb line "Vermelha" then "#e3000b"
  else if String.eqb line "Amarela" then "#ffcc00"
  else "#666".

(** Underscores to spaces, and back. *)
Definition displayName (s : string) : string := Str.replaceAll "_" " " s.
Definition normalize (s : string) : string := Str.replaceAll " " "_" s.

(** [`${Math.floor(time/60)}:${(time%60).toString().padStart(2,'0')}`]. *)
Definition formatTime (time : Z) : string :=
  Str.ofZ (time / 60) ++ ":" ++ Str.padStart 2 "0" (Str.ofZ (Z.rem time 60)).

(** [typeof t === 'number' && t > 0]. *)
Definition positiveNumber (t : JsVal) : option Z :=
  match t with
  | JNum n => if 0 <? n then Some n else None
  | _ => None
  end.

(** [waitTimes.filter(t => typeof t === 'number' && t > 0)] (line 257). *)
Fixpoint validTimes (waitTimes : list JsVal) : list Z :=
  match waitTimes with
  | [] => []
  | t :: r =>
      match positiveNumber t with
      | Some n => n :: validTimes r
      | None => validTimes r
      end
  end.

(** [validTimes.length > 0 ? Math.max(...validTimes) : 0] (line 258). *)
Definition maxTime (valid : list Z) : Z :=
  match valid with
  | [] => 0
  | t :: r => fold_left Z.max r t
  end.

(** [time / maxTime], in binary64. *)
Definition ratio (time max : Z) : float := (Num.ofZ time / Num.ofZ max)%float.

(** The body of [waitTimes.forEach] (lines 260-275): at most one cell. The
    factor [0.7] is the binary64 value the literal denotes. *)
Definition waitCell (color : string) (max : Z) (time : JsVal) : list WaitCell :=
  match time with
  | JStr s =>
      if String.eqb s "--" || String.eqb s "NA" then [WaitNA] else []
  | JNum n =>
      if 0 <? n then
        let darkness :=
          if 0 <? max then (ratio n max * 0x1.6666666666666p-1)%float
          else 0%float in
        [WaitTime (formatTime n) darkness color]
      else []
  | _ => []
  end.

(** The body of [validTimes.forEach] (lines 283-292). *)
Definition trainIcon (occupancy max time : Z) : TrainIcon :=
  {| icon_left := (5 + ratio time max * 90)%float;
     icon_color := getOccupancyColor occupancy;
     icon_title := "Wait: " ++ formatTime time ++ " | Occupancy: "
                   ++ Str.ofZ occupancy ++ "%";
     icon_occupancy := Str.ofZ occupancy ++ "%" |}.

(** One pass of the loop over a line's destinations (lines 250-295):
    nothing unless [waitTimes] is a non-empty array. *)
Definition destinationBlock (color : string) (occupancy : Z)
    (destination : string) (waitTimes : JsVal) : option DestinationBlock :=
  match waitTimes with
  | JArr (t :: r) =>
      let samples := t :: r in
      let valid := validTimes samples in
      let max := maxTime valid in
      Some {| dest_name := displayName destination;
              dest_cells := flat_map (waitCell color max) samples;
              dest_train :=
                match valid with
                | [] => None
                | _ => Some {| track_color := color;
                               track_icons := map (trainIcon occupancy max) valid |}
                end |}
  | _ => None
  end.

Fixpoint destinationBlocks (color : string) (occupancy : Z)
    (destinations : list (string * JsVal)) : list DestinationBlock :=
  match destinations with
  | [] => []
  | (destination, waitTimes) :: r =>
      match destinationBlock color occupancy destination waitTimes with
      | Some b => b :: destinationBlocks color occupancy r
      | None => destinationBlocks color occupancy r
      end
  end.

(** One pass of the loop over the station's lines (lines 238-305), for a
    line that is not skipped. [hasData] is false exactly when no block was
    produced. *)
Definition lineCard (occupancy : Z) (lineName : string) (destinations : JsVal)
    : LineCard :=
  let color := lineColor lineName in
  match destinations with
  | JObj fields =>
      let blocks := destinationBlocks color occupancy fields in
      mkLineCard lineName color blocks
                 (match blocks with [] => true | _ => false end)
  | _ => mkLineCard lineName color [] true
  end.

(** The loop of lines 234-306: entries named ["NA"] are skipped. *)
Fixpoint lineCards (occupancy : Z) (stationData : StationEntry) : list LineCard :=
  match stationData with
  | [] => []
  | (lineName, destinations) :: r =>
      if String.eqb lineName "NA" then lineCards occupancy r
      else lineCard occupancy lineName destinations :: lineCards occupancy r
  end.

(** [totalDestinations] when the loop ends. *)
Definition countDestinations (cards : list LineCard) : nat :=
  fold_right (fun c n => (List.length (line_destinations c) + n)%nat) 0%nat cards.

(** [stationData.NA === "NA"]. *)
Definition isNA (stationData : StationEntry) : bool :=
  match Obj.get stationData "NA" with
  | Some (JStr s) => String.eqb s "NA"
  | _ => false
  end.

(** The key under which [displayStation] reads the entry (lines 183-185);
    an entry is an object, which a condition takes for true. *)
Definition resolveKey (stations : obj StationEntry) (stationName : string)
    : string :=
  match Obj.get stations stationName with
  | Some _ => stationName
  | None => normalize stationName
  end.

(** [displayStation] (lines 171-311). *)
Definition displayStation (stationName : string) (app : App) : App :=
  let app := setCurrentStation (Some stationName) app in
  match metroData app with
  | None => setResults (EmptyState "Loading data...") app
  | Some data =>
      match current_wait_times data with
      | None => setResults (EmptyState "Loading data...") app
      | Some stations =>
          let key := resolveKey stations stationName in
          match Obj.get stations key with
          | None => setResults (EmptyState "Station not found") app
          | Some stationData =>
              if isNA stationData then
                setResults (StationMessage (displayName stationName)
                              "Station is currently closed") app
              else if (List.length (Obj.keys stationData) =? 0)%nat then
                setResults (StationMessage (displayName stationName)
                              "No data available for this station") app
              else
                let cards := lineCards (occupancyPercentage app) stationData in
                setResults (StationCard (displayName stationName) cards
                              (List.length cards) (countDestinations cards)) app
          end
      end
  end.

(** One pass of [allStations.forEach] in [showStationList] (lines 144-159). *)
Definition stationListItem (stations : obj StationEntry) (station : string)
    : StationListItem :=
  let stationData := Obj.get stations station in
  let isClosed :=
    match stationData with
    | Some d => isNA d
    | None => false
    end in
  let lines :=
    match stationData with
    | Some d => Some (filter (fun k => negb (String.eqb k "NA")) (Obj.keys d))
    | None => None
    end in
  {| item_station := station;
     item_closed := isClosed;
     item_name := displayName station;
     item_badges :=
       match lines with
       | Some (l :: r) => Some (map (fun line => (line, lineColor line)) (l :: r))
       | _ => None
       end |}.

(** [showStationList] (lines 134-163). *)
Definition showStationList (app : App) : App :=
  match metroData app with
  | None => setResults (EmptyState "Loading stations...") app
  | Some data =>
      match current_wait_times data with
      | None => setResults (EmptyState "Loading stations...") app
      | Some stations =>
          setResults
            (StationList (map (stationListItem stations) (allStations app))) app
      end
  end.

(** [updateLastUpdate] (lines 126-132): nothing for a missing or zero
    timestamp. *)
Definition updateLastUpdate (ts : option Z) (app : App) : App :=
  match ts with
  | Some t =>
      if t =? 0 then app
      else mkApp (metroData app) (allStations app) (currentStation app)
                 (occupancyPercentage app) (results app) (Some t)
                 (searchInput app) (suggestions app) (suggestionsActive app)
  | None => app
  end.

(* ================================================================== *)
(** * Callbacks *)

(** Lines 54-65 of the subscription's callback: the model is replaced. *)
Definition store (data : Snapshot) (app : App) : App :=
  let stations :=
    match current_wait_times data with
    | Some s => s
    | None => []
    end in
  let app :=
    mkApp (Some data) (Str.sort (Obj.keys stations)) (currentStation app)
          (occupancyPercentage app) (results app) (lastUpdate app)
          (searchInput app) (suggestions app) (suggestionsActive app) in
  let app := updateLastUpdate (timestamp data) app in
  match Occupancy data with
  | Some o =>
      mkApp (metroData app) (allStations app) (currentStation app) o
            (results app) (lastUpdate app) (searchInput app)
            (suggestions app) (suggestionsActive app)
  | None => app
  end.

(** Lines 67-72: the displayed station again, or the list. *)
Definition refresh (app : App) : App :=
  match currentStation app with
  | Some c => if truthyString (Some c) then displayStation c app
              else showStationList app
  | None => showStationList app
  end.

(** The subscription's callback (lines 51-74); [None] is a [null] value. *)
Definition onValue (snapshot : option Snapshot) (app : App) : App :=
  match snapshot with
  | None => app
  | Some data => refresh (store data app)
  end.

(** [window.selectStation] (lines 166-169). *)
Definition selectStation (stationName : string) (app : App) : App :=
  displayStation stationName (setSearchInput (displayName stationName) app).

(** [window.goBack] (lines 225-228). *)
Definition goBack (app : App) : App :=
  showStationList (setCurrentStation None app).

(** The filter of the search box (lines 89-91), [query] being normalised. *)
Definition filterStations (query : string) (stations : list string)
    : list string :=
  filter
    (fun station =>
       Str.includes (Str.replaceAll "_" " " (Str.toLowerCase station)) query)
    stations.

(** The search box's [input] handler (lines 80-116); [value] is what the
    box holds after the edit. *)
Definition onSearchInput (value : string) (app : App) : App :=
  let app := setSearchInput value app in
  let query := Str.trim (Str.toLowerCase value) in
  if String.eqb query "" then
    setSuggestions (Suggest []) (setSuggestionsActive false app)
  else
    match filterStations query (allStations app) with
    | [] => setSuggestionsActive true (setSuggestions NoStationsFound app)
    | filtered =>
        setSuggestionsActive true
          (setSuggestions
             (Suggest (map (fun station => (station, displayName station))
                           filtered)) app)
    end.

(** The [click] handler of one suggestion (lines 105-110). *)
Definition onSuggestionClick (stationName : string) (app : App) : App :=
  displayStation stationName
    (setSuggestionsActive false
       (setSearchInput (displayName stationName) app)).

(** The document's [click] handler (lines 119-123). *)
Definition onDocumentClick (insideSearch : bool) (app : App) : App :=
  if insideSearch then app else setSuggestionsActive false app.

(* ================================================================== *)
(** * Examples *)

Module Examples.

(** The snapshot of the specification's end-to-end example, with a
    closed station, an empty one and a destination of section 8.5. *)
Definition halfClosed : StationEntry :=
  [ ("NA", JStr "NA"); ("Azul", JObj [ ("X", JArr [JNum 60]) ]) ].

Definition stations : obj StationEntry :=
  [ ("Central_Park",
      [ ("Verde", JObj [ ("Telheiras", JArr [JNum 90; JNum 30; JStr "--"]) ]) ]);
    ("A_B", [ ("Azul", JObj [ ("X", JArr [JNum 60]) ]) ]);
    ("Closed_One", [ ("NA", JStr "NA") ]);
    ("Half_Closed", halfClosed);
    ("Empty_One", []) ].

Definition feed : Snapshot :=
  {| timestamp := Some 1700000000000;
     current_wait_times := Some stations;
     Occupancy := Some 75 |}.

Definition loaded : App := onValue (Some feed) start.

End Examples.

(* ================================================================== *)
(** * The specification's vocabulary *)

(** An identifier in canonical, underscore-separated form: it has no space
    for [normalize] to replace. *)
Definition canonical (identifier : string) : Prop :=
  normalize identifier = identifier.

(** [q] occurs in [s] as a substring. *)
Definition occursIn (q s : string) : Prop :=
  exists before after : string, s = before ++ q ++ after.

(** The search of the specification: the stations whose display form
    (underscores replaced with spaces, lowercased) contains the query. *)
Definition searchStations (query : string) (stationList : list string)
    : list string :=
  filter (fun station => Str.includes (Str.toLowerCase (displayName station)) query)
         stationList.

(** [l1] is [l2] with some elements left out, the others in their order. *)
Inductive subsequence {A : Type} : list A -> list A -> Prop :=
| subsequence_nil : subsequence [] []
| subsequence_skip (x : A) (l1 l2 : list A) :
    subsequence l1 l2 -> subsequence l1 (x :: l2)
| subsequence_keep (x : A) (l1 l2 : list A) :
    subsequence l1 l2 -> subsequence (x :: l1) (x :: l2).

(* ================================================================== *)
(** * The event loop *)

(** What the browser hands to the script, one event at a time, each
    handler running to its end before the next. *)
Inductive Event : Type :=
| Delivered (snapshot : option Snapshot)     (* the subscription fires *)
| Typed (value : string)                     (* input in the search box *)
| SuggestionClicked (stationName : string)   (* a suggestion's click *)
| StationSelected (stationName : string)     (* a list item's onclick *)
| Back                                       (* the back button's onclick *)
| Clicked (insideSearch : bool).             (* a click in the document *)

Definition handle (e : Event) (app : App) : App :=
  match e with
  | Delivered snapshot => onValue snapshot app
  | Typed value => onSearchInput value app
  | SuggestionClicked stationName => onSuggestionClick stationName app
  | StationSelected stationName => selectStation stationName app
  | Back => goBack app
  | Clicked insideSearch => onDocumentClick insideSearch app
  end.

Definition run (events : list Event) (app : App) : App :=
  fold_left (fun a e => handle e a) events app.

(** The stations of the stored snapshot, none without one. *)
Definition stationsOf (m : option Snapshot) : obj StationEntry :=
  match m with
  | Some data =>
      match current_wait_times data with
      | Some stations => stations
      | None => []
      end
  | None => []
  end.

(** [allStations] is the sorted keys of the stored snapshot. *)
Definition consistent (app : App) : Prop :=
  allStations app = Str.sort (Obj.keys (stationsOf (metroData app))).

(** The texts of the cells that show a time, in their order. *)
Fixpoint formattedCells (cells : list WaitCell) : list string :=
  match cells with
  | [] => []
  | WaitNA :: r => formattedCells r
  | WaitTime formatted _ _ :: r => formatted :: formattedCells r
  end.

(** The unavailable slots among the cells. *)
Fixpoint unavailableCells (cells : list WaitCell) : nat :=
  match cells with
  | [] => 0%nat
  | WaitNA :: r => S (unavailableCells r)
  | WaitTime _ _ _ :: r => unavailableCells r
  end.

(** [time === "--" || time === "NA"]. *)
Definition isSentinel (t : JsVal) : bool :=
  match t with
  | JStr s => String.eqb s "--" || String.eqb s "NA"
  | _ => false
  end.

(** The icons of a destination, of a line and of the results. *)
Definition blockIcons (b : DestinationBlock) : list TrainIcon :=
  match dest_train b with
  | Some t => track_icons t
  | None => []
  end.

Definition lineIcons (c : LineCard) : list TrainIcon :=
  flat_map blockIcons (line_destinations c).

Definition resultIcons (r : Results) : list TrainIcon :=
  match r with
  | StationCard _ lines _ _ => flat_map lineIcons lines
  | _ => []
  end.

(** The red and green channels of [getOccupancyColor] (lines 31-43). *)
Definition occupancyChannels (percentage : Z) : Num.rounded * Num.rounded :=
  let p := (Num.ofZ (Z.min (Z.max percentage 0) 100) / 100)%float in
  if (p <? 0.5)%float then
    (Num.round (0 + 255 * (p / 0.5))%float, Num.RInt 180)
  else
    (Num.RInt 255, Num.round (180 * (1 - (p - 0.5) / 0.5))%float).

(** [Array.isArray(waitTimes) && waitTimes.length > 0]. *)
Definition hasSamples (waitTimes : JsVal) : bool :=
  match waitTimes with
  | JArr (_ :: _) => true
  | _ => false
  end.

(** A string of white space only. *)
Fixpoint blank (s : string) : bool :=
  match s with
  | EmptyString => true
  | String a r => Str.isWhite a && blank r
  end.

(** Two neighbouring percentages [a] and [a + 1], checked: the channels
    of both are integers, red between 0 and 255 and green between 0 and
    180 with one of them at that end, and from [a] to [a + 1] red does not
    decrease and green does not increase. *)
Definition inGradient (c : Num.rounded * Num.rounded) : bool :=
  match c with
  | (Num.RInt r, Num.RInt g) =>
      (0 <=? r) && (r <=? 255) && (0 <=? g) && (g <=? 180)
      && ((r =? 255) || (g =? 180))
  | _ => false
  end.

Definition gradientStep (a : nat) : bool :=
  let c1 := occupancyChannels (Z.of_nat a) in
  let c2 := occupancyChannels (Z.of_nat (S a)) in
  inGradient c1 && inGradient c2 &&
  match c1, c2 with
  | (Num.RInt r1, Num.RInt g1), (Num.RInt r2, Num.RInt g2) =>
      (r1 <=? r2) && (g2 <=? g1)
  | _, _ => false
  end.

(** A marker that shows the occupancy [occupancy]. *)
Definition showsOccupancy (occupancy : Z) (icon : TrainIcon) : Prop :=
  icon_color icon = getOccupancyColor occupancy /\
  icon_occupancy icon = Str.ofZ occupancy ++ "%".

(* ================================================================== *)
(** * The model on concrete values *)

(** The helpers on the values the script meets. *)
Example formatTime_examples :
  map formatTime [90; 30; 60; 5; 3600; 125] =
    ["1:30"; "0:30"; "1:00"; "0:05"; "60:00"; "2:05"].
Proof. reflexivity. Qed.

Example padStart_examples :
  Str.padStart 2 "0" "5" = "05" /\ Str.padStart 2 "0" "30" = "30" /\
  Str.padStart 5 "ab" "x" = "ababx" /\ Str.padStart 3 "" "x" = "x".
Proof. repeat split. Qed.

Example query_examples :
  Str.trim (Str.toLowerCase "  Cen Tral ") = "cen tral" /\
  Str.includes "central park" "ral p" = true /\
  Str.includes "central park" "" = true /\
  Str.includes "central park" "parc" = false.
Proof. repeat split. Qed.

Example sort_examples :
  Str.sort ["b"; "a_b"; "B"; "ab"; "a"] = ["B"; "a"; "a_b"; "ab"; "b"].
Proof. reflexivity. Qed.

Example getOccupancyColor_examples :
  map getOccupancyColor [5; 25; 75; 99] =
    ["rgb(26,180,0)"; "rgb(128,180,0)"; "rgb(255,90,0)"; "rgb(255,4,0)"].
Proof. vm_compute. reflexivity. Qed.

(** The end-to-end example: one line, one destination, the cell ["1:00"]
    and one marker that carries the occupancy [75%]. *)
Example end_to_end :
  let snapshot :=
    {| timestamp := None;
       current_wait_times :=
         Some [ ("A_B", [ ("Azul", JObj [ ("X", JArr [JNum 60]) ]) ]) ];
       Occupancy := Some 75 |} in
  results (selectStation "A_B" (onValue (Some snapshot) start)) =
    StationCard "A B"
      [ {| line_name := "Azul"; line_color := "#0066cc";
           line_destinations :=
             [ {| dest_name := "X";
                  dest_cells := [ WaitTime "1:00" 0x1.6666666666666p-1 "#0066cc" ];
                  dest_train := Some
                    {| track_color := "#0066cc";
                       track_icons :=
                         [ {| icon_left := 95;
                              icon_color := "rgb(255,90,0)";
                              icon_title := "Wait: 1:00 | Occupancy: 75%";
                              icon_occupancy := "75%" |} ] |} |} ];
           line_noData := false |} ]
      1 1.
Proof. vm_compute. reflexivity. Qed.

(* ================================================================== *)
(** * Station names *)

Section Names.

(** Replacing [c] by [d] leaves a string without [c] alone. *)
Lemma replaceAll_fixed (c d : ascii) (s : string) :
  Str.replaceAll c d (Str.replaceAll c d s) = Str.replaceAll c d s
  \/ c = d.
Proof.
  destruct (Ascii.eqb_spec c d) as [->|ne]; [now right|left].
  induction s as [|a r IH]; simpl; [reflexivity|].
  rewrite IH. f_equal.
  destruct (Ascii.eqb_spec a c) as [->|nac].
  - destruct (Ascii.eqb_spec d c); congruence.
  - now destruct (Ascii.eqb_spec a c).
Qed.

(** After [normalize] every space and every underscore of the display
    form is an underscore, and [displayName] turns them all back. *)
Lemma displayName_normalize (s : string) :
  displayName (normalize s) = displayName s.
Proof.
  unfold displayName, normalize.
  induction s as [|a r IH]; simpl; [reflexivity|].
  rewrite IH. f_equal.
  destruct (Ascii.eqb_spec a " ") as [->|n1]; [reflexivity|].
  reflexivity.
Qed.

Lemma normalize_displayName (s : string) :
  normalize (displayName s) = normalize s.
Proof.
  unfold displayName, normalize.
  induction s as [|a r IH]; simpl; [reflexivity|].
  rewrite IH. f_equal.
  destruct (Ascii.eqb_spec a "_") as [->|n1]; reflexivity.
Qed.

Lemma displayName_idem (s : string) :
  displayName (displayName s) = displayName s.
Proof.
  unfold displayName.
  destruct (replaceAll_fixed "_" " " s) as [e|e]; [exact e|discriminate e].
Qed.

End Names.

(** C8. Normalising a station identifier round-trips through the display
    form: for every identifier [x], with or without underscores,
    [displayName (normalize (displayName x)) = displayName x]. *)
Theorem C8_name_round_trip (x : string) :
  displayName (normalize (displayName x)) = displayName x.
Proof.
  rewrite displayName_normalize. apply displayName_idem.
Qed.

(* ================================================================== *)
(** * Occupancy colour *)

Lemma clamp_idem (x : Z) :
  Z.min (Z.max (Z.min (Z.max x 0) 100) 0) 100 = Z.min (Z.max x 0) 100.
Proof. lia. Qed.

(** C2. [getOccupancyColor] is green at 0, yellow at 50 and red at 100;
    every input is clamped to the interval from 0 to 100 before the two
    segments are applied, so that 150 gives the colour of 100 and -20 the
    colour of 0. *)
Theorem C2_occupancy_color :
  getOccupancyColor 0 = "rgb(0,180,0)" /\
  getOccupancyColor 50 = "rgb(255,180,0)" /\
  getOccupancyColor 100 = "rgb(255,0,0)" /\
  (forall x : Z,
     getOccupancyColor x = getOccupancyColor (Z.min (Z.max x 0) 100)) /\
  getOccupancyColor 150 = getOccupancyColor 100 /\
  getOccupancyColor (-20) = getOccupancyColor 0.
Proof.
  split; [vm_compute; reflexivity|].
  split; [vm_compute; reflexivity|].
  split; [vm_compute; reflexivity|].
  split; [|split; vm_compute; reflexivity].
  intro x. unfold getOccupancyColor. rewrite clamp_idem. reflexivity.
Qed.

(* ================================================================== *)
(** * Wait times of one destination *)


(* ================================================================== *)
(** * What the callbacks leave alone *)

Ltac case_matches :=
  repeat match goal with
         | |- context [match ?x with _ => _ end] => destruct x eqn:?
         end.

Lemma updateLastUpdate_occupancy (ts : option Z) (app : App) :
  occupancyPercentage (updateLastUpdate ts app) = occupancyPercentage app.
Proof. unfold updateLastUpdate; case_matches; reflexivity. Qed.

Lemma updateLastUpdate_currentStation (ts : option Z) (app : App) :
  currentStation (updateLastUpdate ts app) = currentStation app.
Proof. unfold updateLastUpdate; case_matches; reflexivity. Qed.

Section Frame.

Variables (stationName : string) (app : App).

Lemma displayStation_currentStation :
  currentStation (displayStation stationName app) = Some stationName.
Proof. unfold displayStation; cbn; case_matches; reflexivity. Qed.

Lemma displayStation_occupancy :
  occupancyPercentage (displayStation stationName app)
  = occupancyPercentage app.
Proof. unfold displayStation; cbn; case_matches; reflexivity. Qed.

Lemma displayStation_metroData :
  metroData (displayStation stationName app) = metroData app.
Proof. unfold displayStation; cbn; case_matches; cbn; congruence. Qed.

Lemma displayStation_not_list (items : list StationListItem) :
  results (displayStation stationName app) <> StationList items.
Proof. unfold displayStation; cbn; case_matches; discriminate. Qed.

Lemma showStationList_occupancy :
  occupancyPercentage (showStationList app) = occupancyPercentage app.
Proof. unfold showStationList; case_matches; reflexivity. Qed.

Lemma refresh_occupancy :
  occupancyPercentage (refresh app) = occupancyPercentage app.
Proof.
  unfold refresh. destruct (currentStation app) as [c|].
  - destruct (truthyString (Some c)).
    + unfold displayStation; cbn; case_matches; reflexivity.
    + apply showStationList_occupancy.
  - apply showStationList_occupancy.
Qed.

Lemma store_occupancy (data : Snapshot) :
  occupancyPercentage (store data app) =
    match Occupancy data with
    | Some o => o
    | None => occupancyPercentage app
    end.
Proof.
  unfold store. destruct (Occupancy data); [reflexivity|].
  now rewrite updateLastUpdate_occupancy.
Qed.

Lemma store_currentStation (data : Snapshot) :
  currentStation (store data app) = currentStation app.
Proof.
  unfold store. destruct (Occupancy data); cbn;
    now rewrite updateLastUpdate_currentStation.
Qed.

Lemma store_metroData (data : Snapshot) :
  metroData (store data app) = Some data.
Proof.
  unfold store, updateLastUpdate.
  destruct (Occupancy data), (timestamp data) as [t|];
    try destruct (t =? 0); reflexivity.
Qed.

End Frame.

Lemma onValue_occupancy (snapshot : option Snapshot) (app : App) :
  occupancyPercentage (onValue snapshot app) =
    match snapshot with
    | Some data =>
        match Occupancy data with
        | Some o => o
        | None => occupancyPercentage app
        end
    | None => occupancyPercentage app
    end.
Proof.
  destruct snapshot as [data|]; [|reflexivity].
  unfold onValue. rewrite refresh_occupancy. apply store_occupancy.
Qed.

(** Snapshots that carry no [Occupancy], one after the other. *)
Lemma silent_feed_occupancy
    (feed : list (option Z * option (obj StationEntry))) (app : App) :
  occupancyPercentage
    (fold_left (fun a d => onValue (Some (mkSnapshot (fst d) (snd d) None)) a)
               feed app)
  = occupancyPercentage app.
Proof.
  revert app. induction feed as [|d feed IH]; intros app; [reflexivity|].
  cbn [fold_left]. rewrite IH. now rewrite onValue_occupancy.
Qed.

(** C7. When a snapshot is delivered without the [Occupancy] field the
    stored percentage is the one from before, the built-in 50 as long as no
    snapshot carried the field; with the field, it is the field's value. *)
Theorem C7_occupancy_retained (snapshot : option Snapshot) (app : App) :
  occupancyPercentage (onValue snapshot app) =
    match snapshot with
    | Some data =>
        match Occupancy data with
        | Some o => o
        | None => occupancyPercentage app
        end
    | None => occupancyPercentage app
    end /\
  occupancyPercentage start = 50 /\
  forall feed : list (option Z * option (obj StationEntry)),
    occupancyPercentage
      (fold_left (fun a d => onValue (Some (mkSnapshot (fst d) (snd d) None)) a)
                 feed start)
    = 50.
Proof.
  split; [apply onValue_occupancy|]. split; [reflexivity|].
  intros feed. now rewrite silent_feed_occupancy.
Qed.

(* ================================================================== *)
(** * Detail rendering *)

Section Detail.

Variables (app : App) (data : Snapshot) (stations : obj StationEntry).
Hypothesis Hdata : metroData app = Some data.
Hypothesis Hstations : current_wait_times data = Some stations.

(** [displayStation] once a snapshot with stations is there. *)
Lemma displayStation_results (stationName : string) :
  results (displayStation stationName app) =
    match Obj.get stations (resolveKey stations stationName) with
    | None => EmptyState "Station not found"
    | Some stationData =>
        if isNA stationData then
          StationMessage (displayName stationName)
            "Station is currently closed"
        else if (List.length (Obj.keys stationData) =? 0)%nat then
          StationMessage (displayName stationName)
            "No data available for this station"
        else
          let cards := lineCards (occupancyPercentage app) stationData in
          StationCard (displayName stationName) cards
            (List.length cards) (countDestinations cards)
    end.
Proof.
  unfold displayStation. cbn [metroData setCurrentStation].
  rewrite Hdata, Hstations.
  destruct (Obj.get stations (resolveKey stations stationName)) as [sd|];
    [|reflexivity].
  destruct (isNA sd); [reflexivity|].
  destruct (List.length (Obj.keys sd) =? 0)%nat; reflexivity.
Qed.

(** The entry that is read: the one under the name as given, else the
    one under the name with its spaces turned into underscores. *)
Lemma resolveKey_get (stationName : string) :
  Obj.get stations (resolveKey stations stationName) =
    match Obj.get stations stationName with
    | Some e => Some e
    | None => Obj.get stations (normalize stationName)
    end.
Proof.
  unfold resolveKey.
  destruct (Obj.get stations stationName) eqn:E; [exact E|reflexivity].
Qed.

End Detail.

Lemma isNA_get (entry : StationEntry) :
  Obj.get entry "NA" = Some (JStr "NA") -> isNA entry = true.
Proof. unfold isNA. now intros ->. Qed.

(** C10. A station entry that has the key ["NA"] with the value ["NA"] is
    rendered as the closed message, whatever other line keys it has: the
    test comes before the loop over the lines, and no line card is
    rendered. *)
Theorem C10_closed_before_lines
    (app : App) (data : Snapshot) (stations : obj StationEntry)
    (stationName : string) (entry : StationEntry) :
  metroData app = Some data ->
  current_wait_times data = Some stations ->
  Obj.get stations (resolveKey stations stationName) = Some entry ->
  Obj.get entry "NA" = Some (JStr "NA") ->
  results (displayStation stationName app) =
    StationMessage (displayName stationName) "Station is currently closed".
Proof.
  intros Hd Hs He Hna.
  rewrite (displayStation_results app data stations Hd Hs), He.
  now rewrite (isNA_get entry Hna).
Qed.

Lemma C10_closed_before_lines_witness :
  Obj.get Examples.halfClosed "Azul" = Some (JObj [ ("X", JArr [JNum 60]) ]) /\
  results (displayStation "Half_Closed" Examples.loaded) =
    StationMessage "Half Closed" "Station is currently closed".
Proof.
  split; [reflexivity|].
  exact (C10_closed_before_lines Examples.loaded Examples.feed
           Examples.stations "Half_Closed" Examples.halfClosed
           eq_refl eq_refl eq_refl eq_refl).
Defined.



(** C4, as the script has it. Detail rendering sets the selection to the
    station name as it was requested, which is the key under which the
    entry was found only when that name needed no normalisation; the
    heading shows the requested name in display form, which is also the
    display form of the key that was found. *)
Theorem C4_selection_is_requested_name
    (app : App) (data : Snapshot) (stations : obj StationEntry)
    (stationName : string) (entry : StationEntry) :
  metroData app = Some data ->
  current_wait_times data = Some stations ->
  Obj.get stations (resolveKey stations stationName) = Some entry ->
  currentStation (displayStation stationName app) = Some stationName /\
  heading (results (displayStation stationName app))
    = Some (displayName stationName) /\
  displayName (resolveKey stations stationName) = displayName stationName.
Proof.
  intros Hd Hs He. split; [apply displayStation_currentStation|]. split.
  - rewrite (displayStation_results app data stations Hd Hs), He.
    destruct (isNA entry); [reflexivity|].
    destruct (List.length (Obj.keys entry) =? 0)%nat; reflexivity.
  - unfold resolveKey. destruct (Obj.get stations stationName);
      [reflexivity|apply displayName_normalize].
Qed.

Lemma C4_selection_is_requested_name_witness :
  currentStation (displayStation "Central Park" Examples.loaded)
    = Some "Central Park" /\
  heading (results (displayStation "Central Park" Examples.loaded))
    = Some "Central Park" /\
  displayName (resolveKey Examples.stations "Central Park") = "Central Park".
Proof.
  exact (C4_selection_is_requested_name Examples.loaded Examples.feed
           Examples.stations "Central Park"
           [ ("Verde",
               JObj [ ("Telheiras", JArr [JNum 90; JNum 30; JStr "--"]) ]) ]
           eq_refl eq_refl eq_refl).
Defined.

(** Requesting the space form of [Central_Park]: the entry is found under
    [Central_Park], and the selection holds [Central Park]. *)
Lemma C4_selection_not_resolved_key :
  resolveKey Examples.stations "Central Park" = "Central_Park" /\
  currentStation (displayStation "Central Park" Examples.loaded)
    = Some "Central Park" /\
  currentStation (displayStation "Central Park" Examples.loaded)
    <> Some (resolveKey Examples.stations "Central Park").
Proof.
  split; [reflexivity|]. split; [reflexivity|]. discriminate.
Qed.

(** C9. Detail rendering stores the requested name in the selection before
    it looks at the data: whatever the state, also with no snapshot yet or
    with a name that is not found, the selection is the requested name
    afterwards, and the next snapshot that is delivered runs detail
    rendering for that name again and does not render the station list. *)
Theorem C9_selection_before_checks
    (stationName : string) (app : App) (data : Snapshot) :
  stationName <> "" ->
  currentStation (displayStation stationName app) = Some stationName /\
  onValue (Some data) (displayStation stationName app) =
    displayStation stationName (store data (displayStation stationName app)) /\
  currentStation (onValue (Some data) (displayStation stationName app))
    = Some stationName /\
  forall items,
    results (onValue (Some data) (displayStation stationName app))
      <> StationList items.
Proof.
  intros Hname.
  assert (Hnext : onValue (Some data) (displayStation stationName app) =
            displayStation stationName
              (store data (displayStation stationName app))).
  { unfold onValue, refresh.
    rewrite store_currentStation, displayStation_currentStation.
    destruct stationName; [congruence|reflexivity]. }
  split; [apply displayStation_currentStation|]. split; [exact Hnext|].
  rewrite Hnext. split.
  - apply displayStation_currentStation.
  - intros items. apply displayStation_not_list.
Qed.

Lemma C9_selection_before_checks_witness :
  results (displayStation "Nowhere" start) = EmptyState "Loading data..." /\
  currentStation (displayStation "Nowhere" start) = Some "Nowhere" /\
  results (onValue (Some Examples.feed) (displayStation "Nowhere" start))
    = EmptyState "Station not found" /\
  currentStation (onValue (Some Examples.feed) (displayStation "Nowhere" start))
    = Some "Nowhere".
Proof.
  assert (Hname : "Nowhere" <> "") by discriminate.
  pose (C9_selection_before_checks "Nowhere" start Examples.feed Hname) as H.
  split; [reflexivity|]. split; [exact (proj1 H)|].
  split; [reflexivity|]. exact (proj1 (proj2 (proj2 H))).
Defined.

(* ================================================================== *)
(** * Looking a station up *)

Section Lookup.

Context {V : Type}.

Lemma get_In (o : obj V) (k : string) (v : V) :
  Obj.get o k = Some v -> In k (Obj.keys o).
Proof.
  induction o as [|[k' v'] r IH]; simpl; [discriminate|].
  destruct (String.eqb_spec k' k) as [->|ne]; [now left|].
  intros H. right. now apply IH.
Qed.

End Lookup.

Section Forms.

Variable stations : obj StationEntry.
Hypothesis Hcanonical : Forall canonical (Obj.keys stations).

Lemma key_canonical (k : string) (e : StationEntry) :
  Obj.get stations k = Some e -> normalize k = k.
Proof.
  intros H. apply get_In in H.
  rewrite Forall_forall in Hcanonical. now apply Hcanonical.
Qed.

(** A key is its own resolution, and so is its display form's. *)
Lemma resolveKey_key (id : string) (e : StationEntry) :
  Obj.get stations id = Some e -> resolveKey stations id = id.
Proof. unfold resolveKey. now intros ->. Qed.

Lemma resolveKey_displayName (id : string) (e : StationEntry) :
  Obj.get stations id = Some e ->
  resolveKey stations (displayName id) = id.
Proof.
  intros H. unfold resolveKey.
  destruct (Obj.get stations (displayName id)) as [e'|] eqn:E.
  - apply key_canonical in E. apply key_canonical in H.
    rewrite normalize_displayName in E. congruence.
  - rewrite normalize_displayName. now apply key_canonical in H.
Qed.

End Forms.



(* ================================================================== *)
(** * Search *)

Section Substrings.

Lemma prefix_app (q s : string) :
  String.prefix q s = true <-> exists after, s = q ++ after.
Proof.
  revert s. induction q as [|a q IH]; intros s.
  - destruct s; simpl; split; eauto.
  - destruct s as [|b s]; simpl.
    + split; [discriminate|intros [x H]; discriminate H].
    + destruct (ascii_dec a b) as [->|ne].
      * rewrite IH. split; intros [x H]; exists x; congruence.
      * split; [discriminate|intros [x H]; congruence].
Qed.

(** [includes] finds exactly the substrings. *)
Lemma includes_occursIn (s q : string) :
  Str.includes s q = true <-> occursIn q s.
Proof.
  unfold occursIn. induction s as [|c r IH]; cbn [Str.includes].
  - rewrite orb_false_r, prefix_app. split.
    + intros [x H]. now exists "", x.
    + intros [a [b H]]. destruct a; [now exists b|discriminate H].
  - rewrite orb_true_iff, prefix_app, IH. split.
    + intros [[x H]|[a [b H]]].
      * now exists "", x.
      * exists (String c a), b. simpl. now rewrite H.
    + intros [a [b H]]. destruct a as [|c' a]; simpl in H.
      * left. now exists b.
      * right. exists a, b. congruence.
Qed.

(** Lower case moves neither the underscore nor the space, so the two
    steps of the display form commute with it. *)
Lemma lowerChar_underscore (a : ascii) :
  (if Ascii.eqb (Str.lowerChar a) "_" then " "%char else Str.lowerChar a)
  = Str.lowerChar (if Ascii.eqb a "_" then " "%char else a).
Proof. destruct a as [[] [] [] [] [] [] [] []]; reflexivity. Qed.

Lemma toLowerCase_displayName (s : string) :
  Str.replaceAll "_" " " (Str.toLowerCase s)
  = Str.toLowerCase (displayName s).
Proof.
  unfold displayName. induction s as [|a r IH]; simpl; [reflexivity|].
  now rewrite IH, lowerChar_underscore.
Qed.

Lemma filter_subsequence {A : Type} (f : A -> bool) (l : list A) :
  subsequence (filter f l) l.
Proof.
  induction l as [|x l IH]; simpl; [constructor|].
  destruct (f x); now constructor.
Qed.

Lemma filterStations_searchStations (query : string) (l : list string) :
  filterStations query l = searchStations query l.
Proof.
  unfold filterStations, searchStations. apply filter_ext.
  intros station. now rewrite toLowerCase_displayName.
Qed.

End Substrings.

Section Sorting.

Lemma insert_perm (x : string) (l : list string) :
  Permutation (x :: l) (Str.insert x l).
Proof.
  induction l as [|y r IH]; simpl; [reflexivity|].
  destruct (Str.leb x y); [reflexivity|].
  rewrite perm_swap. now constructor.
Qed.

Lemma insert_sorted (x : string) (l : list string) :
  Sorted Str.le l -> Sorted Str.le (Str.insert x l).
Proof.
  induction 1 as [|y r Hs IH Hh]; simpl; [repeat constructor|].
  destruct (Str.leb x y) eqn:E.
  - repeat constructor; assumption.
  - constructor; [exact IH|].
    assert (Hyx : Str.le y x).
    { destruct (String.leb_total x y) as [H|H]; [|exact H].
      unfold Str.leb in E. congruence. }
    destruct r as [|z r]; simpl; [now constructor|].
    destruct (Str.leb x z); constructor; [exact Hyx|].
    now inversion Hh.
Qed.

(** [sort] puts the keys in the order of the default comparison. *)
Lemma sort_sorted (l : list string) :
  Sorted Str.le (Str.sort l) /\ Permutation l (Str.sort l).
Proof.
  induction l as [|x l [Hs Hp]]; simpl; [split; constructor|]. split.
  - now apply insert_sorted.
  - rewrite <- insert_perm. now constructor.
Qed.

(** After a snapshot the station list is its keys, sorted. *)
Lemma store_allStations (data : Snapshot) (app : App) :
  allStations (store data app) =
    Str.sort (Obj.keys (match current_wait_times data with
                        | Some s => s
                        | None => []
                        end)).
Proof.
  unfold store, updateLastUpdate.
  destruct (Occupancy data), (timestamp data) as [t|];
    try destruct (t =? 0); reflexivity.
Qed.

End Sorting.

(** C5. The search ignores case and takes the underscore for a space: with
    the query lowercased and trimmed, the filter keeps exactly the stations
    whose display form (underscores replaced with spaces, lowercased)
    contains the query as a substring, in the order of the station list;
    the suggestions are those stations with their display names, and the
    query ["cen"] finds [Central_Park]. *)
Theorem C5_search (value : string) (app : App) :
  let query := Str.trim (Str.toLowerCase value) in
  let filtered := filterStations query (allStations app) in
  filtered = searchStations query (allStations app) /\
  (forall station : string,
     In station filtered <->
     In station (allStations app) /\
     occursIn query (Str.toLowerCase (displayName station))) /\
  subsequence filtered (allStations app) /\
  suggestions (onSearchInput value app) =
    (if String.eqb query "" then Suggest []
     else match filtered with
          | [] => NoStationsFound
          | _ => Suggest (map (fun station => (station, displayName station))
                              filtered)
          end) /\
  filterStations (Str.trim (Str.toLowerCase "cen")) ["Central_Park"]
    = ["Central_Park"] /\
  suggestions (onSearchInput "cen" Examples.loaded)
    = Suggest [("Central_Park", "Central Park")] /\
  suggestions (onSearchInput " CENTRAL p" Examples.loaded)
    = Suggest [("Central_Park", "Central Park")].
Proof.
  cbv zeta. split; [apply filterStations_searchStations|]. split.
  - intros station. rewrite filterStations_searchStations.
    unfold searchStations. rewrite filter_In.
    now rewrite includes_occursIn.
  - split; [apply filter_subsequence|]. split.
    + unfold onSearchInput. cbn [allStations setSearchInput].
      destruct (String.eqb (Str.trim (Str.toLowerCase value)) "");
        [reflexivity|].
      destruct (filterStations _ _); reflexivity.
    + split; [reflexivity|]. split; vm_compute; reflexivity.
Qed.

(* ================================================================== *)
(** * The station list and the stored snapshot *)

Section ModelFrame.

Variable app : App.

Lemma displayStation_model (stationName : string) :
  metroData (displayStation stationName app) = metroData app /\
  allStations (displayStation stationName app) = allStations app.
Proof. unfold displayStation; cbn; case_matches; cbn; split; congruence. Qed.

Lemma showStationList_model :
  metroData (showStationList app) = metroData app /\
  allStations (showStationList app) = allStations app.
Proof. unfold showStationList; case_matches; cbn; split; congruence. Qed.

Lemma onSearchInput_model (value : string) :
  metroData (onSearchInput value app) = metroData app /\
  allStations (onSearchInput value app) = allStations app.
Proof. unfold onSearchInput; cbn; case_matches; cbn; split; reflexivity. Qed.

End ModelFrame.

Lemma refresh_model (app : App) :
  metroData (refresh app) = metroData app /\
  allStations (refresh app) = allStations app.
Proof.
  unfold refresh. destruct (currentStation app) as [c|];
    [destruct (truthyString (Some c))|];
    first [apply displayStation_model | apply showStationList_model].
Qed.

Lemma onValue_model (data : Snapshot) (app : App) :
  metroData (onValue (Some data) app) = Some data /\
  allStations (onValue (Some data) app)
    = Str.sort (Obj.keys (stationsOf (Some data))).
Proof.
  unfold onValue. destruct (refresh_model (store data app)) as [-> ->].
  split; [apply store_metroData|apply store_allStations].
Qed.

Lemma handle_consistent (e : Event) (app : App) :
  consistent app -> consistent (handle e app).
Proof.
  unfold consistent. intros H. destruct e as [[d|]|v|n|n| |b]; cbn [handle].
  - destruct (onValue_model d app) as [-> ->]. reflexivity.
  - exact H.
  - destruct (onSearchInput_model app v) as [-> ->]. exact H.
  - unfold onSuggestionClick.
    destruct (displayStation_model
                (setSuggestionsActive false
                   (setSearchInput (displayName n) app)) n) as [-> ->].
    exact H.
  - unfold selectStation.
    destruct (displayStation_model (setSearchInput (displayName n) app) n)
      as [-> ->].
    exact H.
  - unfold goBack.
    destruct (showStationList_model (setCurrentStation None app)) as [-> ->].
    exact H.
  - destruct b; exact H.
Qed.

(** X1. Whatever events the page has seen since it was loaded, the station
    list the search and the list view read is the keys of the snapshot the
    detail view reads, in sorted order: a sorted rearrangement of them,
    and empty as long as there is no snapshot with stations. *)
Theorem X1_station_list_follows_snapshot (events : list Event) :
  let app := run events start in
  consistent app /\
  Sorted Str.le (allStations app) /\
  Permutation (Obj.keys (stationsOf (metroData app))) (allStations app).
Proof.
  cbv zeta.
  assert (H : consistent (run events start)).
  { unfold run. generalize start (eq_refl : consistent start).
    induction events as [|e events IH]; intros a Ha; [exact Ha|].
    cbn [fold_left]. apply IH. now apply handle_consistent. }
  split; [exact H|]. rewrite H. apply sort_sorted.
Qed.

(* ================================================================== *)
(** * Clicking what the page offers *)

Lemma In_keys_get {V : Type} (o : obj V) (k : string) :
  In k (Obj.keys o) -> exists v, Obj.get o k = Some v.
Proof.
  induction o as [|[k' v'] r IH]; simpl; [contradiction|].
  destruct (String.eqb_spec k' k) as [->|ne]; [now eexists|].
  intros [H|H]; [contradiction|now apply IH].
Qed.

(** A station of the station list is a key of the stored snapshot. *)
Lemma consistent_station (app : App) (station : string) :
  consistent app -> In station (allStations app) ->
  exists data stations entry,
    metroData app = Some data /\
    current_wait_times data = Some stations /\
    Obj.get stations station = Some entry.
Proof.
  unfold consistent. intros Hc Hin. rewrite Hc in Hin.
  apply (Permutation_in _ (Permutation_sym (proj2 (sort_sorted _)))) in Hin.
  destruct (metroData app) as [data|]; [|contradiction].
  cbn [stationsOf] in Hin.
  destruct (current_wait_times data) as [stations|] eqn:Es; [|contradiction].
  destruct (In_keys_get stations station Hin) as [entry He].
  now exists data, stations, entry.
Qed.

(** Detail rendering of a key of the snapshot shows a card for it. *)
Lemma displayStation_key_heading
    (app : App) (data : Snapshot) (stations : obj StationEntry)
    (station : string) (entry : StationEntry) :
  metroData app = Some data ->
  current_wait_times data = Some stations ->
  Obj.get stations station = Some entry ->
  heading (results (displayStation station app)) = Some (displayName station).
Proof.
  intros Hd Hs He.
  rewrite (displayStation_results app data stations Hd Hs).
  rewrite (resolveKey_key stations station entry He), He.
  destruct (isNA entry); [reflexivity|].
  destruct (List.length (Obj.keys entry) =? 0)%nat; reflexivity.
Qed.

Lemma onSearchInput_suggestions (value : string) (app : App) :
  suggestions (onSearchInput value app) =
    let query := Str.trim (Str.toLowerCase value) in
    if String.eqb query "" then Suggest []
    else match filterStations query (allStations app) with
         | [] => NoStationsFound
         | filtered =>
             Suggest (map (fun station => (station, displayName station))
                          filtered)
         end.
Proof.
  unfold onSearchInput. cbn [allStations setSearchInput]. cbv zeta.
  destruct (String.eqb (Str.trim (Str.toLowerCase value)) "");
    [reflexivity|].
  destruct (filterStations _ _); reflexivity.
Qed.





(* ================================================================== *)
(** * The list view *)

Lemma filter_nil_iff {A : Type} (f : A -> bool) (l : list A) :
  filter f l = [] <-> Forall (fun x => f x = false) l.
Proof.
  induction l as [|x l IH]; simpl; [split; constructor|].
  destruct (f x) eqn:E.
  - split; [discriminate|]. intros H. inversion H. congruence.
  - rewrite IH. split; [now constructor|now inversion 1].
Qed.




(** [displayStation] writes the selection and the results, and the
    results only depend on the snapshot and the occupancy. *)
Lemma displayStation_shape (c : string) (app : App) :
  displayStation c app
  = setResults (results (displayStation c app))
               (setCurrentStation (Some c) app).
Proof. unfold displayStation; cbn; case_matches; reflexivity. Qed.

Lemma displayStation_results_ext (c : string) (a b : App) :
  metroData a = metroData b ->
  occupancyPercentage a = occupancyPercentage b ->
  results (displayStation c a) = results (displayStation c b).
Proof.
  intros Hm Ho. unfold displayStation. cbn. rewrite Hm, Ho.
  case_matches; reflexivity.
Qed.

Lemma showStationList_shape (app : App) :
  showStationList app = setResults (results (showStationList app)) app.
Proof.
  destruct app. unfold showStationList; cbn; case_matches; reflexivity.
Qed.

Lemma showStationList_results_ext (a b : App) :
  metroData a = metroData b -> allStations a = allStations b ->
  results (showStationList a) = results (showStationList b).
Proof.
  intros Hm Ha. unfold showStationList. rewrite Hm, Ha.
  case_matches; reflexivity.
Qed.

Lemma refresh_shape (app : App) :
  exists r, refresh app = setResults r app /\
            forall b, metroData b = metroData app ->
                      allStations b = allStations app ->
                      occupancyPercentage b = occupancyPercentage app ->
                      currentStation b = currentStation app ->
                      refresh b = setResults r b.
Proof.
  unfold refresh. destruct (currentStation app) as [c|] eqn:Ec.
  - destruct (truthyString (Some c)) eqn:Et.
    + exists (results (displayStation c app)). split.
      * rewrite displayStation_shape.
        generalize (results (displayStation c app)). intros r.
        destruct app; cbn in Ec |- *. now subst.
      * intros b Hm _ Ho Hc. rewrite Hc, Et, displayStation_shape.
        rewrite (displayStation_results_ext c b app Hm Ho).
        generalize (results (displayStation c app)). intros r.
        destruct b; cbn in Hc |- *. now subst.
    + exists (results (showStationList app)). split.
      * apply showStationList_shape.
      * intros b Hm Ha _ Hc. rewrite Hc, Et, showStationList_shape.
        now rewrite (showStationList_results_ext b app Hm Ha).
  - exists (results (showStationList app)). split.
    + apply showStationList_shape.
    + intros b Hm Ha _ Hc. rewrite Hc, showStationList_shape.
      now rewrite (showStationList_results_ext b app Hm Ha).
Qed.

(** [store], field by field. *)
Lemma store_fields (data : Snapshot) (app : App) :
  store data app =
    mkApp (Some data) (Str.sort (Obj.keys (stationsOf (Some data))))
          (currentStation app)
          (match Occupancy data with
           | Some o => o
           | None => occupancyPercentage app
           end)
          (results app)
          (match timestamp data with
           | Some t => if t =? 0 then lastUpdate app else Some t
           | None => lastUpdate app
           end)
          (searchInput app) (suggestions app) (suggestionsActive app).
Proof.
  unfold store, updateLastUpdate, stationsOf.
  destruct (Occupancy data), (timestamp data) as [t|];
    try destruct (t =? 0); reflexivity.
Qed.

(** Storing a snapshot commutes with writing the results, and storing it
    twice is storing it once. *)
Lemma store_setResults (data : Snapshot) (r : Results) (app : App) :
  store data (setResults r app) = setResults r (store data app).
Proof. now rewrite !store_fields. Qed.

Lemma store_idem (data : Snapshot) (app : App) :
  store data (store data app) = store data app.
Proof.
  rewrite !store_fields.
  cbn [currentStation occupancyPercentage results lastUpdate searchInput
       suggestions suggestionsActive].
  destruct (Occupancy data), (timestamp data) as [t|];
    try destruct (t =? 0); reflexivity.
Qed.

(** X6. Delivering the same snapshot a second time changes nothing: the
    callback is idempotent, for the model as for everything on the page. *)
Theorem X6_same_snapshot_twice (snapshot : option Snapshot) (app : App) :
  onValue snapshot (onValue snapshot app) = onValue snapshot app.
Proof.
  destruct snapshot as [data|]; [|reflexivity].
  unfold onValue.
  destruct (refresh_shape (store data app)) as [r [Hr Hext]].
  rewrite Hr, store_setResults, store_idem.
  rewrite (Hext (setResults r (store data app)));
    [destruct (store data app); reflexivity|reflexivity..].
Qed.

(* ================================================================== *)
(** * The station card *)

Lemma destinationBlocks_nil_iff (color : string) (occupancy : Z)
    (fields : list (string * JsVal)) :
  destinationBlocks color occupancy fields = [] <->
  Forall (fun f => destinationBlock color occupancy (fst f) (snd f) = None)
         fields.
Proof.
  induction fields as [|[d w] r IH]; cbn [destinationBlocks];
    [split; constructor|].
  destruct (destinationBlock color occupancy d w) eqn:E.
  - split; [discriminate|]. intros H. inversion H as [|? ? H1 H2]; subst.
    cbn in H1. congruence.
  - rewrite IH. split; [now constructor|now inversion 1].
Qed.


Section Block.

Variables (color : string) (occupancy max : Z).

Lemma waitCell_formatted (samples : list JsVal) :
  formattedCells (flat_map (waitCell color max) samples)
    = map formatTime (validTimes samples).
Proof.
  induction samples as [|t r IH]; [reflexivity|].
  cbn [flat_map validTimes]. destruct t as [b|n|s|items|fields];
    cbn [waitCell positiveNumber app]; try exact IH.
  - destruct (0 <? n); cbn [app formattedCells map]; [now rewrite IH|exact IH].
  - destruct (String.eqb s "--" || String.eqb s "NA");
      cbn [app formattedCells]; exact IH.
Qed.

Lemma waitCell_unavailable (samples : list JsVal) :
  unavailableCells (flat_map (waitCell color max) samples)
    = List.length (filter isSentinel samples).
Proof.
  induction samples as [|t r IH]; [reflexivity|].
  cbn [flat_map filter]. destruct t as [b|n|s|items|fields];
    cbn [waitCell isSentinel app]; try exact IH.
  - destruct (0 <? n); cbn [app unavailableCells]; exact IH.
  - destruct (String.eqb s "--" || String.eqb s "NA");
      cbn [app unavailableCells List.length]; [now rewrite IH|exact IH].
Qed.

Lemma waitCell_length (samples : list JsVal) :
  (List.length (flat_map (waitCell color max) samples)
   <= List.length samples)%nat.
Proof.
  induction samples as [|t r IH]; [constructor|].
  cbn [flat_map]. rewrite length_app. cbn [List.length].
  assert (List.length (waitCell color max t) <= 1)%nat; [|lia].
  destruct t as [b|n|s|items|fields]; cbn; try lia.
  - destruct (0 <? n); cbn; lia.
  - destruct (String.eqb s "--" || String.eqb s "NA"); cbn; lia.
Qed.

End Block.

Lemma destinationBlock_array
    (color destination : string) (occupancy : Z) (samples : list JsVal) :
  samples <> [] ->
  destinationBlock color occupancy destination (JArr samples) =
    let valid := validTimes samples in
    let max := maxTime valid in
    Some {| dest_name := displayName destination;
            dest_cells := flat_map (waitCell color max) samples;
            dest_train :=
              match valid with
              | [] => None
              | _ => Some {| track_color := color;
                             track_icons := map (trainIcon occupancy max) valid |}
              end |}.
Proof. destruct samples; [congruence|reflexivity]. Qed.



(* ================================================================== *)
(** * Valid times *)

Lemma fold_max_ge (r : list Z) (t : Z) :
  t <= fold_left Z.max r t /\
  Forall (fun x => x <= fold_left Z.max r t) r.
Proof.
  revert t. induction r as [|x r IH]; intros t; cbn [fold_left].
  - split; [lia|constructor].
  - destruct (IH (Z.max t x)) as [H1 H2]. split; [lia|].
    constructor; [lia|exact H2].
Qed.

Lemma fold_max_in (r : list Z) (t : Z) :
  In (fold_left Z.max r t) (t :: r).
Proof.
  revert t. induction r as [|x r IH]; intros t; cbn [fold_left];
    [now left|].
  destruct (IH (Z.max t x)) as [H|H]; [|right; now right].
  destruct (Z.max_spec t x) as [[_ E]|[_ E]]; rewrite E in H |- *.
  - right. now left.
  - now left.
Qed.

Lemma validTimes_In (samples : list JsVal) (t : Z) :
  In t (validTimes samples) <-> In (JNum t) samples /\ 0 < t.
Proof.
  induction samples as [|s r IH]; cbn [validTimes In]; [tauto|].
  destruct s as [b|n|str|items|fields]; cbn [positiveNumber];
    try (rewrite IH; split; [tauto|intros [[H|H] Hp]; [discriminate|tauto]]).
  destruct (Z.ltb_spec 0 n) as [Hn|Hn]; cbn [In]; rewrite IH.
  - split.
    + intros [->|[H1 H2]]; [now split; [left|]|tauto].
    + intros [[H|H] Hp]; [left; congruence|tauto].
  - split; [tauto|]. intros [[H|H] Hp]; [|tauto].
    injection H as ->. lia.
Qed.

(** X9. The valid times of a sequence are exactly its numbers above zero;
    [maxTime] is the largest of them, and is itself one of them unless
    there is none, in which case it is 0. So every time that gets a cell
    or a marker lies above 0 and at most at [maxTime], and the fallback for
    [maxTime] 0 in the darkness is never taken for a cell that is shown. *)
Theorem X9_valid_times (samples : list JsVal) :
  let valid := validTimes samples in
  (forall t : Z, In t valid <-> In (JNum t) samples /\ 0 < t) /\
  Forall (fun t => 0 < t <= maxTime valid) valid /\
  (valid = [] /\ maxTime valid = 0
   \/ In (maxTime valid) valid /\ 0 < maxTime valid).
Proof.
  cbv zeta. split; [apply validTimes_In|].
  assert (Hpos : Forall (fun t => 0 < t) (validTimes samples)).
  { apply Forall_forall. intros t H. now apply validTimes_In in H. }
  destruct (validTimes samples) as [|t r]; [split; [constructor|now left]|].
  cbn [maxTime]. destruct (fold_max_ge r t) as [Ht Hr].
  pose proof (fold_max_in r t) as Hin.
  split.
  - rewrite Forall_forall in Hpos, Hr. apply Forall_forall.
    intros x [<-|Hx]; (split; [apply Hpos; cbn; tauto|]);
      [exact Ht|now apply Hr].
  - right. split; [exact Hin|].
    rewrite Forall_forall in Hpos. now apply Hpos.
Qed.

(* ================================================================== *)
(** * Formatted times *)

Lemma two_digits (r : Z) :
  0 <= r < 60 ->
  Str.padStart 2 "0" (Str.ofZ r) = Str.ofZ (r / 10) ++ Str.ofZ (r mod 10).
Proof.
  intros Hr.
  assert (Hall : forallb
            (fun n => String.eqb
                        (Str.padStart 2 "0" (Str.ofZ (Z.of_nat n)))
                        (Str.ofZ (Z.of_nat n / 10)
                         ++ Str.ofZ (Z.of_nat n mod 10)))
            (seq 0 60) = true) by (vm_compute; reflexivity).
  rewrite forallb_forall in Hall.
  specialize (Hall (Z.to_nat r)).
  rewrite Z2Nat.id in Hall by lia.
  apply String.eqb_eq, Hall, in_seq. lia.
Qed.



(* ================================================================== *)
(** * The gradient *)

Lemma getOccupancyColor_channels (x : Z) :
  getOccupancyColor x =
    "rgb(" ++ Num.toString (fst (occupancyChannels x)) ++ ","
    ++ Num.toString (snd (occupancyChannels x)) ++ ",0)".
Proof.
  unfold getOccupancyColor, occupancyChannels.
  destruct (_ <? _)%float; reflexivity.
Qed.

Lemma occupancyChannels_clamp (x : Z) :
  occupancyChannels x = occupancyChannels (Z.min (Z.max x 0) 100).
Proof. unfold occupancyChannels. now rewrite clamp_idem. Qed.

Lemma gradientStep_all : forallb gradientStep (seq 0 100) = true.
Proof. vm_compute. reflexivity. Qed.

Lemma gradientStep_at (a : nat) : (a < 100)%nat -> gradientStep a = true.
Proof.
  intros H. pose proof gradientStep_all as Hall.
  rewrite forallb_forall in Hall. apply Hall, in_seq. lia.
Qed.

Lemma inGradient_at (n : nat) :
  (n <= 100)%nat -> inGradient (occupancyChannels (Z.of_nat n)) = true.
Proof.
  intros H. destruct n as [|n].
  - pose proof (gradientStep_at 0) as H0. unfold gradientStep in H0.
    cbv zeta in H0.
    destruct (inGradient (occupancyChannels (Z.of_nat 0))); [reflexivity|].
    discriminate H0. lia.
  - pose proof (gradientStep_at n) as Hn. unfold gradientStep in Hn.
    cbv zeta in Hn.
    destruct (inGradient (occupancyChannels (Z.of_nat (S n))));
      [reflexivity|].
    rewrite andb_false_r in Hn. discriminate Hn. lia.
Qed.

Lemma gradient_monotone_nat (k a : nat) (r1 g1 r2 g2 : Z) :
  (a + k <= 100)%nat ->
  occupancyChannels (Z.of_nat a) = (Num.RInt r1, Num.RInt g1) ->
  occupancyChannels (Z.of_nat (a + k)) = (Num.RInt r2, Num.RInt g2) ->
  r1 <= r2 /\ g2 <= g1.
Proof.
  revert r2 g2. induction k as [|k IH]; intros r2 g2 Hle H1 H2.
  - rewrite Nat.add_0_r, H1 in H2. injection H2 as <- <-. lia.
  - pose proof (inGradient_at (a + k)) as Hmid.
    pose proof (gradientStep_at (a + k)) as Hstep.
    unfold gradientStep in Hstep. cbv zeta in Hstep.
    replace (S (a + k)) with (a + S k)%nat in Hstep by lia.
    rewrite H2 in Hstep.
    destruct (occupancyChannels (Z.of_nat (a + k))) as [[r| |?] [g| |?]];
      try (cbn in Hmid; discriminate Hmid; lia).
    destruct (IH r g) as [Hr Hg]; [lia|exact H1|reflexivity|].
    assert (Hs : (r <=? r2) && (g2 <=? g) = true).
    { destruct ((r <=? r2) && (g2 <=? g)); [reflexivity|].
      rewrite andb_false_r in Hstep. discriminate Hstep. lia. }
    lia.
Qed.

(** X11. For every percentage the colour is [rgb(r,g,0)] with whole
    channels, red between 0 and 255 and green between 0 and 180, never
    [NaN]; and it lies on the two segments: red is 255 or green is 180. *)
Theorem X11_gradient_range (x : Z) :
  exists r g : Z,
    occupancyChannels x = (Num.RInt r, Num.RInt g) /\
    getOccupancyColor x
      = "rgb(" ++ Str.ofZ r ++ "," ++ Str.ofZ g ++ ",0)" /\
    0 <= r <= 255 /\ 0 <= g <= 180 /\ (r = 255 \/ g = 180).
Proof.
  pose proof (inGradient_at (Z.to_nat (Z.min (Z.max x 0) 100))) as H.
  rewrite Z2Nat.id, <- occupancyChannels_clamp in H by lia.
  rewrite getOccupancyColor_channels.
  destruct (occupancyChannels x) as [[r| |?] [g| |?]];
    try (cbn in H; discriminate H; lia).
  exists r, g. split; [reflexivity|]. split; [reflexivity|].
  cbn in H. lia.
Qed.

(** X12. The gradient runs one way: of two percentages the higher one has
    at least as much red and at most as much green. *)
Theorem X12_gradient_monotone (x y r1 g1 r2 g2 : Z) :
  x <= y ->
  occupancyChannels x = (Num.RInt r1, Num.RInt g1) ->
  occupancyChannels y = (Num.RInt r2, Num.RInt g2) ->
  r1 <= r2 /\ g2 <= g1.
Proof.
  intros Hxy Hx Hy.
  rewrite occupancyChannels_clamp in Hx, Hy.
  set (a := Z.to_nat (Z.min (Z.max x 0) 100)).
  set (b := Z.to_nat (Z.min (Z.max y 0) 100)).
  apply (gradient_monotone_nat (b - a) a).
  - subst a b. lia.
  - subst a. now rewrite Z2Nat.id by lia.
  - replace (a + (b - a))%nat with b by (subst a b; lia).
    subst b. now rewrite Z2Nat.id by lia.
Qed.

Lemma X12_gradient_monotone_witness :
  occupancyChannels 25 = (Num.RInt 128, Num.RInt 180) /\
  occupancyChannels 75 = (Num.RInt 255, Num.RInt 90) /\
  128 <= 255 /\ 90 <= 180.
Proof.
  assert (H : 25 <= 75) by lia.
  assert (H1 : occupancyChannels 25 = (Num.RInt 128, Num.RInt 180))
    by (vm_compute; reflexivity).
  assert (H2 : occupancyChannels 75 = (Num.RInt 255, Num.RInt 90))
    by (vm_compute; reflexivity).
  split; [exact H1|]. split; [exact H2|].
  exact (X12_gradient_monotone 25 75 128 180 255 90 H H1 H2).
Defined.

(* ================================================================== *)
(** * Markers and the occupancy *)

Lemma destinationBlocks_icons (color : string) (occupancy : Z)
    (fields : list (string * JsVal)) :
  Forall (showsOccupancy occupancy)
         (flat_map blockIcons (destinationBlocks color occupancy fields)).
Proof.
  induction fields as [|[d w] r IH]; cbn [destinationBlocks];
    [constructor|].
  destruct (destinationBlock color occupancy d w) as [b|] eqn:E;
    [|exact IH].
  cbn [flat_map]. apply Forall_app. split; [|exact IH].
  destruct w as [?|?|?|items|?]; try discriminate E.
  assert (Hne : items <> []) by (destruct items; discriminate).
  rewrite (destinationBlock_array _ _ _ _ Hne) in E. cbv zeta in E.
  injection E as <-. unfold blockIcons. cbn [dest_train].
  destruct (validTimes items); [constructor|].
  cbn [track_icons]. apply Forall_forall. intros icon Hin.
  apply in_map_iff in Hin. destruct Hin as [time [<- _]]. now split.
Qed.

Lemma lineCards_icons (occupancy : Z) (entry : StationEntry) :
  Forall (showsOccupancy occupancy)
         (flat_map lineIcons (lineCards occupancy entry)).
Proof.
  induction entry as [|[lineName destinations] r IH]; cbn [lineCards];
    [constructor|].
  destruct (String.eqb lineName "NA"); [exact IH|].
  cbn [flat_map]. apply Forall_app. split; [|exact IH].
  unfold lineCard, lineIcons.
  destruct destinations; cbn [line_destinations flat_map];
    try constructor.
  apply destinationBlocks_icons.
Qed.


(* ================================================================== *)
(** * What the search box makes of its text *)

Section Typing.

Lemma toLowerCase_app (s t : string) :
  Str.toLowerCase (s ++ t) = Str.toLowerCase s ++ Str.toLowerCase t.
Proof. induction s as [|a r IH]; simpl; congruence. Qed.

Lemma lowerChar_idem (a : ascii) :
  Str.lowerChar (Str.lowerChar a) = Str.lowerChar a.
Proof. destruct a as [[] [] [] [] [] [] [] []]; reflexivity. Qed.

Lemma lowerChar_white (a : ascii) :
  Str.isWhite a = true -> Str.lowerChar a = a.
Proof. destruct a as [[] [] [] [] [] [] [] []]; (reflexivity || discriminate). Qed.

Lemma toLowerCase_idem (s : string) :
  Str.toLowerCase (Str.toLowerCase s) = Str.toLowerCase s.
Proof.
  induction s as [|a r IH]; simpl; [reflexivity|].
  now rewrite IH, lowerChar_idem.
Qed.

Lemma toLowerCase_blank (s : string) :
  blank s = true -> Str.toLowerCase s = s.
Proof.
  induction s as [|a r IH]; simpl; [reflexivity|].
  intros H. apply andb_true_iff in H. destruct H as [Ha Hr].
  now rewrite IH, lowerChar_white.
Qed.

Lemma trimStart_blank (pre s : string) :
  blank pre = true -> Str.trimStart (pre ++ s) = Str.trimStart s.
Proof.
  induction pre as [|a r IH]; simpl; [reflexivity|].
  intros H. apply andb_true_iff in H. destruct H as [-> Hr]. now apply IH.
Qed.

Lemma trimEnd_blank (post : string) :
  blank post = true -> Str.trimEnd post = "".
Proof.
  induction post as [|a r IH]; simpl; [reflexivity|].
  intros H. apply andb_true_iff in H. destruct H as [-> Hr].
  now rewrite IH.
Qed.

Lemma trimEnd_app_blank (s post : string) :
  blank post = true -> Str.trimEnd (s ++ post) = Str.trimEnd s.
Proof.
  intros H. induction s as [|a r IH]; simpl; [now apply trimEnd_blank|].
  now rewrite IH.
Qed.

Lemma blank_trimStart (s : string) :
  blank s = true -> blank (Str.trimStart s) = true.
Proof.
  induction s as [|a r IH]; simpl; [reflexivity|].
  intros H. apply andb_true_iff in H. destruct H as [-> Hr]. now apply IH.
Qed.

Lemma trim_app_blank (s post : string) :
  blank post = true -> Str.trim (s ++ post) = Str.trim s.
Proof.
  intros H. unfold Str.trim. induction s as [|a r IH]; simpl.
  - now apply trimEnd_blank, blank_trimStart.
  - destruct (Str.isWhite a); [exact IH|].
    apply (trimEnd_app_blank (String a r) post H).
Qed.

(** The query the handler derives from padded text in any case. *)
Lemma query_padded (pre value post : string) :
  blank pre = true -> blank post = true ->
  Str.trim (Str.toLowerCase (pre ++ value ++ post))
  = Str.trim (Str.toLowerCase value).
Proof.
  intros Hpre Hpost. rewrite !toLowerCase_app.
  rewrite (toLowerCase_blank pre Hpre), (toLowerCase_blank post Hpost).
  rewrite <- (trim_app_blank (Str.toLowerCase value) post Hpost).
  unfold Str.trim. now rewrite trimStart_blank.
Qed.

Lemma onSearchInput_panel (value : string) (app : App) :
  suggestionsActive (onSearchInput value app)
  = negb (String.eqb (Str.trim (Str.toLowerCase value)) "").
Proof.
  unfold onSearchInput.
  destruct (String.eqb (Str.trim (Str.toLowerCase value)) "");
    [reflexivity|].
  destruct (filterStations _ _); reflexivity.
Qed.

End Typing.



(* ================================================================== *)
(** * What the search finds *)

Section Finding.

Lemma append_assoc (a b c : string) : (a ++ b) ++ c = a ++ b ++ c.
Proof. induction a as [|x a IH]; simpl; congruence. Qed.

Lemma occursIn_trans (q1 q2 s : string) :
  occursIn q1 q2 -> occursIn q2 s -> occursIn q1 s.
Proof.
  intros [a [b ->]] [c [d ->]]. exists (c ++ a), (b ++ d).
  now rewrite !append_assoc.
Qed.

Lemma trimStart_suffix (s : string) :
  exists pre, s = pre ++ Str.trimStart s.
Proof.
  induction s as [|a r [pre IH]]; simpl; [now exists ""|].
  destruct (Str.isWhite a); [|now exists ""].
  exists (String a pre). simpl. now rewrite <- IH.
Qed.

Lemma trimEnd_prefix (s : string) :
  exists post, s = Str.trimEnd s ++ post.
Proof.
  induction s as [|a r [post IH]]; simpl; [now exists ""|].
  destruct (Str.trimEnd r) as [|b t].
  - destruct (Str.isWhite a).
    + now exists (String a r).
    + exists post. simpl. now rewrite IH at 1.
  - exists post. simpl. now rewrite IH at 1.
Qed.

Lemma trim_occursIn (s : string) : occursIn (Str.trim s) s.
Proof.
  unfold Str.trim. destruct (trimStart_suffix s) as [pre Hpre].
  destruct (trimEnd_prefix (Str.trimStart s)) as [post Hpost].
  exists pre, post. now rewrite <- Hpost.
Qed.

(** The display form holds no underscore. *)
Lemma no_underscore (s a b : string) :
  Str.replaceAll "_" " " s <> a ++ "_" ++ b.
Proof.
  revert a. induction s as [|c r IH]; intros a; simpl.
  - destruct a; discriminate.
  - destruct a as [|x a]; simpl; intros H; injection H as Hc Hr.
    + destruct (Ascii.eqb_spec c "_"); [discriminate Hc|congruence].
    + now apply IH in Hr.
Qed.

Lemma filter_subsequence_mono {A : Type} (f g : A -> bool) (l : list A) :
  (forall x, f x = true -> g x = true) ->
  subsequence (filter f l) (filter g l).
Proof.
  intros H. induction l as [|x l IH]; simpl; [constructor|].
  destruct (f x) eqn:Ef.
  - rewrite (H x Ef). now constructor.
  - destruct (g x); [now constructor|exact IH].
Qed.

End Finding.

(** X15. Typing a station's display name finds that station: whatever
    else matches, the station is among the suggestions, under that name.
    This is the text the script itself puts in the search box when a
    station is selected. *)
Theorem X15_display_name_finds_station (station : string) (app : App) :
  In station (allStations app) ->
  Str.trim (Str.toLowerCase (displayName station)) <> "" ->
  exists items,
    suggestions (onSearchInput (displayName station) app) = Suggest items /\
    In (station, displayName station) items.
Proof.
  intros Hin Hq. rewrite onSearchInput_suggestions. cbv zeta.
  destruct (String.eqb_spec (Str.trim (Str.toLowerCase (displayName station)))
                            "") as [E|_]; [contradiction|].
  assert (Hf : In station
                 (filterStations
                    (Str.trim (Str.toLowerCase (displayName station)))
                    (allStations app))).
  { rewrite filterStations_searchStations. unfold searchStations.
    apply filter_In. split; [exact Hin|].
    apply includes_occursIn, trim_occursIn. }
  destruct (filterStations _ _) as [|x l]; [contradiction|].
  eexists. split; [reflexivity|].
  apply (in_map (fun st => (st, displayName st))) in Hf. exact Hf.
Qed.

Lemma X15_display_name_finds_station_witness :
  exists items,
    suggestions (onSearchInput "Central Park" Examples.loaded)
      = Suggest items /\
    In ("Central_Park", "Central Park") items.
Proof.
  assert (Hq : Str.trim (Str.toLowerCase (displayName "Central_Park")) <> "")
    by discriminate.
  exact (X15_display_name_finds_station "Central_Park" Examples.loaded
           (or_intror (or_introl eq_refl)) Hq).
Defined.

(** X16. The query is not normalised the way station names are: a query
    with an underscore in it matches no station, because the display forms
    it is compared with have none; typing an identifier such as
    [Central_Park] gives "no stations found". *)
Theorem X16_underscore_finds_nothing (value : string) (app : App) :
  Str.includes (Str.trim (Str.toLowerCase value)) "_" = true ->
  filterStations (Str.trim (Str.toLowerCase value)) (allStations app) = [] /\
  suggestions (onSearchInput value app) = NoStationsFound.
Proof.
  intros Hu.
  assert (Hnil : filterStations (Str.trim (Str.toLowerCase value))
                   (allStations app) = []).
  { unfold filterStations. apply filter_nil_iff, Forall_forall.
    intros station _.
    destruct (Str.includes _ (Str.trim (Str.toLowerCase value))) eqn:E;
      [|reflexivity].
    apply includes_occursIn in E. apply includes_occursIn in Hu.
    destruct (occursIn_trans _ _ _ Hu E) as [a [b H]].
    now apply no_underscore in H. }
  split; [exact Hnil|].
  rewrite onSearchInput_suggestions. cbv zeta. rewrite Hnil.
  destruct (String.eqb_spec (Str.trim (Str.toLowerCase value)) "") as [E|_];
    [|reflexivity].
  rewrite E in Hu. discriminate Hu.
Qed.

Lemma X16_underscore_finds_nothing_witness :
  suggestions (onSearchInput "Central_Park" Examples.loaded)
  = NoStationsFound.
Proof.
  exact (proj2 (X16_underscore_finds_nothing "Central_Park" Examples.loaded
                  eq_refl)).
Defined.

(** X17. A longer query narrows the search: if one query occurs in
    another, the stations the filter keeps for the longer one are among
    those it keeps for the shorter one, in the same order. *)
Theorem X17_longer_query_narrows (q1 q2 : string) (stations : list string) :
  occursIn q1 q2 ->
  subsequence (filterStations q2 stations) (filterStations q1 stations).
Proof.
  intros H. unfold filterStations. apply filter_subsequence_mono.
  intros station E. apply includes_occursIn.
  apply includes_occursIn in E. exact (occursIn_trans _ _ _ H E).
Qed.

Lemma X17_longer_query_narrows_witness :
  subsequence (filterStations "central" (allStations Examples.loaded))
              (filterStations "en" (allStations Examples.loaded)).
Proof.
  apply X17_longer_query_narrows. exists "c", "tral". reflexivity.
Defined.

(* ================================================================== *)
(** * Across snapshots *)

Lemma refresh_lastUpdate (app : App) :
  lastUpdate (refresh app) = lastUpdate app.
Proof. destruct (refresh_shape app) as [r [-> _]]. reflexivity. Qed.

(** X18. The "last update" line follows the snapshots' timestamps: a
    snapshot with a timestamp other than 0 replaces it, and a snapshot
    without one, or with the timestamp 0, leaves the line as it was, as
    does a [null] value. *)
Theorem X18_last_update (snapshot : option Snapshot) (app : App) :
  lastUpdate (onValue snapshot app) =
    match snapshot with
    | Some data =>
        match timestamp data with
        | Some t => if t =? 0 then lastUpdate app else Some t
        | None => lastUpdate app
        end
    | None => lastUpdate app
    end.
Proof.
  destruct snapshot as [data|]; [|reflexivity].
  unfold onValue. rewrite refresh_lastUpdate, store_fields. reflexivity.
Qed.

(** X19. A selected station stays selected while snapshots arrive: after
    any run of deliveries that follows the detail rendering of a
    non-empty name, the selection is still that name and the results are
    not the list view. *)
Theorem X19_selection_survives_snapshots
    (stationName : string) (snapshots : list (option Snapshot)) (app : App) :
  stationName <> "" ->
  let final := run (map Delivered snapshots) (displayStation stationName app) in
  currentStation final = Some stationName /\
  forall items, results final <> StationList items.
Proof.
  intros Hname. cbv zeta.
  assert (Hstart :
    currentStation (displayStation stationName app) = Some stationName /\
    forall items,
      results (displayStation stationName app) <> StationList items).
  { split; [apply displayStation_currentStation|].
    intros items. apply displayStation_not_list. }
  revert Hstart. generalize (displayStation stationName app).
  unfold run. induction snapshots as [|s snapshots IH]; intros a Ha;
    [exact Ha|].
  cbn [map fold_left handle]. apply IH.
  destruct s as [data|]; [|exact Ha]. destruct Ha as [Hc _].
  unfold onValue, refresh. rewrite store_currentStation, Hc.
  destruct stationName; [congruence|]. cbn [truthyString].
  split; [apply displayStation_currentStation|].
  intros items. apply displayStation_not_list.
Qed.

Lemma X19_selection_survives_snapshots_witness :
  currentStation
    (run (map Delivered [Some Examples.feed; None; Some Examples.feed])
         (displayStation "A_B" start))
  = Some "A_B".
Proof.
  assert (Hname : "A_B" <> "") by discriminate.
  exact (proj1 (X19_selection_survives_snapshots "A_B"
                  [Some Examples.feed; None; Some Examples.feed] start Hname)).
Defined.

(** X20. The two views agree on which stations are closed: a station of
    the snapshot has the [closed] class in the list view exactly when its
    detail view is the closed message. *)
Theorem X20_closed_in_both_views
    (app : App) (data : Snapshot) (stations : obj StationEntry)
    (station : string) (entry : StationEntry) :
  metroData app = Some data ->
  current_wait_times data = Some stations ->
  Obj.get stations station = Some entry ->
  item_closed (stationListItem stations station) = true <->
  results (displayStation station app)
    = StationMessage (displayName station) "Station is currently closed".
Proof.
  intros Hd Hs He.
  rewrite (displayStation_results app data stations Hd Hs).
  rewrite (resolveKey_key stations station entry He), He.
  unfold stationListItem. rewrite He. cbn [item_closed].
  destruct (isNA entry); [split; reflexivity|].
  split; [discriminate|].
  destruct (List.length (Obj.keys entry) =? 0)%nat; discriminate.
Qed.

Lemma X20_closed_in_both_views_witness :
  item_closed (stationListItem Examples.stations "Half_Closed") = true <->
  results (displayStation "Half_Closed" Examples.loaded)
    = StationMessage "Half Closed" "Station is currently closed".
Proof.
  exact (X20_closed_in_both_views Examples.loaded Examples.feed
           Examples.stations "Half_Closed" Examples.halfClosed
           eq_refl eq_refl eq_refl).
Defined.

(* ================================================================== *)
(** * The destinations of a line *)

Lemma destinationBlock_hasSamples
    (color destination : string) (occupancy : Z) (waitTimes : JsVal) :
  match destinationBlock color occupancy destination waitTimes with
  | Some b => hasSamples waitTimes = true /\
              dest_name b = displayName destination
  | None => hasSamples waitTimes = false
  end.
Proof.
  destruct waitTimes as [?|?|?|[|t r]|?]; cbn; try reflexivity. now split.
Qed.

(** X21. A line card shows the destinations whose value is a non-empty
    array, under their display names and in the line's order; the others
    (an empty array, a value that is no array) are passed over without a
    trace, and the card has the "no data" notice exactly when all are. The
    footer counts the destinations that are shown. *)
Theorem X21_destinations_shown
    (occupancy : Z) (lineName : string) (fields : list (string * JsVal)) :
  let card := lineCard occupancy lineName (JObj fields) in
  let shown := filter (fun f => hasSamples (snd f)) fields in
  map dest_name (line_destinations card)
    = map (fun f => displayName (fst f)) shown /\
  (line_noData card = true <-> shown = []) /\
  countDestinations [card] = List.length shown.
Proof.
  cbv zeta. unfold lineCard. cbn [line_destinations line_noData].
  assert (H : map dest_name
                (destinationBlocks (lineColor lineName) occupancy fields)
              = map (fun f => displayName (fst f))
                    (filter (fun f => hasSamples (snd f)) fields)).
  { induction fields as [|[d w] r IH]; [reflexivity|].
    cbn [destinationBlocks filter snd].
    pose proof (destinationBlock_hasSamples (lineColor lineName) d
                  occupancy w) as Hb.
    destruct (destinationBlock (lineColor lineName) occupancy d w) as [b|].
    - destruct Hb as [-> Hn]. cbn [map fst]. now rewrite IH, Hn.
    - rewrite Hb. exact IH. }
  split; [exact H|].
  apply (f_equal (@List.length string)) in H. rewrite !length_map in H.
  unfold countDestinations. cbn [fold_right line_destinations].
  rewrite Nat.add_0_r. split; [|exact H].
  destruct (destinationBlocks _ _ fields);
    destruct (filter _ fields); cbn in H; try discriminate H;
    split; (reflexivity || discriminate).
Qed.
